(** * comments.py: stripping comment-only lines from .ts/.js files

    A shallow embedding of [src/comments.py] and the properties of its
    line filter and of its directory-walking driver.

    Python strings are sequences of Unicode code points; they are modelled
    as lists of code points ([N]), so that the whitespace class used by
    [re]'s [\s] and by [str.strip] is the one CPython implements, not an
    ASCII approximation. *)

From Stdlib Require Import NArith Ascii String.
From stdpp Require Import base list gmap.

Local Open Scope N_scope.

(** ** Python strings *)

Definition codepoint := N.
Definition pystr := list codepoint.

(** A string literal of the script, as a Python string. *)
Fixpoint py (s : string) : pystr :=
  match s with
  | EmptyString => []
  | String a s' => N_of_ascii a :: py s'
  end.

Definition NL : codepoint := 10.       (* '\n' *)
Definition SLASH : codepoint := 47.    (* '/' *)
Definition STAR : codepoint := 42.     (* '*' *)

(** [Py_UNICODE_ISSPACE]: the class behind both [\s] in a [str] pattern and
    [str.strip()] without arguments. *)
Definition isspace (ch : codepoint) : bool :=
  ((0x09 <=? ch) && (ch <=? 0x0D))
  || ((0x1C <=? ch) && (ch <=? 0x1F))
  || (ch =? 0x20) || (ch =? 0x85) || (ch =? 0xA0) || (ch =? 0x1680)
  || ((0x2000 <=? ch) && (ch <=? 0x200A))
  || (ch =? 0x2028) || (ch =? 0x2029) || (ch =? 0x202F)
  || (ch =? 0x205F) || (ch =? 0x3000).

(** [s.startswith(prefix)] *)
Fixpoint startswith (s prefix : pystr) {struct prefix} : bool :=
  match prefix, s with
  | [], _ => true
  | _ :: _, [] => false
  | p :: prefix', c :: s' => (c =? p) && startswith s' prefix'
  end.

(** [s.endswith(suffix)] *)
Definition endswith (s suffix : pystr) : bool :=
  startswith (rev s) (rev suffix).

(** [s.lstrip()], [s.rstrip()] and [s.strip()] with the default character
    class. *)
Fixpoint lstrip (s : pystr) : pystr :=
  match s with
  | c :: s' => if isspace c then lstrip s' else s
  | [] => []
  end.

Definition rstrip (s : pystr) : pystr := rev (lstrip (rev s)).

Definition strip (s : pystr) : pystr := rstrip (lstrip s).

(** [content.split(sep)] for a one-character separator: every occurrence
    of [sep] ends a piece, and the result always has at least one piece. *)
Fixpoint split (sep : codepoint) (content : pystr) : list pystr :=
  match content with
  | [] => [[]]
  | c :: rest =>
      if c =? sep then [] :: split sep rest
      else match split sep rest with
           | piece :: pieces => (c :: piece) :: pieces
           | [] => [[c]]
           end
  end.

(** [sep.join(pieces)] *)
Fixpoint join (sep : pystr) (pieces : list pystr) : pystr :=
  match pieces with
  | [] => []
  | [piece] => piece
  | piece :: rest => piece ++ sep ++ join sep rest
  end.

(** ** The line filter *)

(** [re.match(r'^\s*//', line)]: the greedy star first tries to take one
    more whitespace character and falls back to matching [//] where it
    stands. *)
Fixpoint re_match_comment (line : pystr) : bool :=
  match line with
  | c :: rest =>
      if isspace c
      then re_match_comment rest || startswith line [SLASH; SLASH]
      else startswith line [SLASH; SLASH]
  | [] => false
  end.

Definition JSDOC : pystr := [SLASH; STAR; STAR].   (* '/**' *)

(** The [for line in lines] loop, with [processed_lines] as accumulator. *)
Fixpoint process_lines (lines processed_lines : list pystr) : list pystr :=
  match lines with
  | [] => processed_lines
  | line :: rest =>
      if re_match_comment line then
        if negb (startswith (strip line) JSDOC)
        then process_lines rest processed_lines               (* continue *)
        else process_lines rest (processed_lines ++ [line])
      else process_lines rest (processed_lines ++ [line])
  end.

(** From [content] as read to [processed_content] as written. *)
Definition process_content (content : pystr) : pystr :=
  let lines := split NL content in
  let processed_lines := process_lines lines [] in
  join [NL] processed_lines.

(** ** Exceptions, the file system and the console *)

(** An exception, as far as the script looks at it: the text [str(e)]
    that the f-string of [main] prints. *)
Record exn := Exn { exn_str : pystr }.

(** What the script asks of the operating system.  [fs_read p] is
    [open(p, 'r', encoding='utf-8')] followed by [f.read()]: the decoded
    text, or the exception raised by opening, reading or decoding.
    [fs_write p text] is [open(p, 'w', encoding='utf-8')] followed by
    [f.write(text)] and the close of the [with] block: the exception raised,
    if any, and the file system it leaves (a failed write may have truncated
    the file). *)
Class FileSystem (fs : Type) := {
  fs_read : pystr -> fs -> exn + pystr;
  fs_write : pystr -> pystr -> fs -> option exn * fs
}.

(** The state of a run: the files and the lines printed so far. *)
Record world (fs : Type) := World { files : fs; stdout : list pystr }.
Arguments World {fs} _ _.
Arguments files {fs} _.
Arguments stdout {fs} _.

(** Computations that may raise: the exception or the value, and the
    world left behind. *)
Definition io (fs A : Type) : Type := world fs -> (exn + A) * world fs.

Definition ret {fs A} (a : A) : io fs A := fun w => (inr a, w).

Definition bind {fs A B} (m : io fs A) (k : A -> io fs B) : io fs B :=
  fun w =>
    match m w with
    | (inr a, w') => k a w'
    | (inl e, w') => (inl e, w')
    end.

Notation "x <- m ;; k" := (bind m (fun x => k))
  (at level 100, m at next level, right associativity).
Notation "m ;;; k" := (bind m (fun _ => k))
  (at level 100, right associativity).

(** The console behind [sys.stdout]: the code points its encoding has,
    and the [UnicodeEncodeError] raised for a line it cannot encode.  The
    encodings Python gives a console all have the ASCII characters. *)
Class Console := {
  can_encode : codepoint -> bool;
  encode_error : pystr -> exn;
  ascii_encodable : forall c, c < 128 -> can_encode c = true
}.

(** A line that [sys.stdout] can encode. *)
Definition printable `{Console} (line : pystr) : bool := forallb can_encode line.

(** [print(line)]: the line is encoded as a whole before anything is
    written, so a line that cannot be encoded raises and prints nothing. *)
Definition print `{Console} {fs} (line : pystr) : io fs unit :=
  fun w =>
    if printable line
    then (inr tt, World (files w) (stdout w ++ [line]))
    else (inl (encode_error line), w).

Definition read_text `{FileSystem fs} (file_path : pystr) : io fs pystr :=
  fun w => (fs_read file_path (files w), w).

Definition write_text `{FileSystem fs} (file_path text : pystr) : io fs unit :=
  fun w =>
    let '(raised, files') := fs_write file_path text (files w) in
    (match raised with Some e => inl e | None => inr tt end,
     World files' (stdout w)).

(** [try: body  except Exception as e: handler(e)] *)
Definition try_except {fs} (body : io fs unit) (handler : exn -> io fs unit)
  : io fs unit :=
  fun w =>
    match body w with
    | (inr tt, w') => (inr tt, w')
    | (inl e, w') => handler e w'
    end.

(** ** [remove_inline_comments] *)

Definition remove_inline_comments `{Console} `{FileSystem fs} (file_path : pystr)
  : io fs unit :=
  content <- read_text file_path ;;
  let processed_content := process_content content in
  write_text file_path processed_content ;;;
  print (py "Processed: " ++ file_path).

(** ** Directory trees and [os.walk] *)

(** A directory entry as [os.scandir] lists it.  A directory that is not
    descended into (a symbolic link, or one whose listing fails) is a [Dir]
    without children: [main] never looks at the directory names. *)
#[local] Unset Elimination Schemes.
Inductive entry :=
| File (name : pystr)
| Dir (name : pystr) (children : list entry).
#[local] Set Elimination Schemes.

Definition filenames (entries : list entry) : list pystr :=
  flat_map (fun e => match e with File n => [n] | Dir _ _ => [] end) entries.

Definition dirnames (entries : list entry) : list pystr :=
  flat_map (fun e => match e with File _ => [] | Dir n _ => [n] end) entries.

(** [os.path.join(a, b)] of [posixpath]. *)
Definition path_join (a b : pystr) : pystr :=
  if startswith b [SLASH] then b
  else if (match a with [] => true | _ => false end) || endswith a [SLASH]
       then a ++ b
       else a ++ [SLASH] ++ b.

(** [os.walk(top)], top-down: the triple of [top] first, then the walks of
    its subdirectories in listing order. *)
Fixpoint walk_entry (top : pystr) (e : entry)
  : list (pystr * list pystr * list pystr) :=
  match e with
  | File _ => []
  | Dir name children =>
      let new_path := path_join top name in
      (new_path, dirnames children, filenames children)
      :: flat_map (walk_entry new_path) children
  end.

Definition walk (top : pystr) (entries : list entry)
  : list (pystr * list pystr * list pystr) :=
  (top, dirnames entries, filenames entries)
  :: flat_map (walk_entry top) entries.

(** ** [main] *)

Definition USAGE : pystr := py "Usage: python remove_inline_comments.py <directory>".

Section Main.
Context `{Console} `{FileSystem fs}.

(** The directory structure: the listing under a directory name, or
    [None] where [os.walk] cannot list it and yields nothing.  The script
    creates, renames and deletes nothing, so it is the same throughout
    a run. *)
Variable scantree : pystr -> option (list entry).

Definition os_walk (directory : pystr) :=
  match scantree directory with
  | Some entries => walk directory entries
  | None => []
  end.

(** The body of [for file in files]. *)
Definition visit_file (root file : pystr) : io fs unit :=
  if endswith file (py ".ts") || endswith file (py ".js") then
    let file_path := path_join root file in
    try_except (remove_inline_comments file_path)
      (fun e => print (py "Error processing " ++ file_path ++ py ": " ++ exn_str e))
  else ret tt.

(** [for x in xs: body(x)] *)
Fixpoint for_each {A} (xs : list A) (body : A -> io fs unit) : io fs unit :=
  match xs with
  | [] => ret tt
  | x :: xs' => body x ;;; for_each xs' body
  end.

(** How the process ends: [sys.exit(n)] or the end of the script, or an
    exception that reaches the top level (a traceback, and status 1). *)
Inductive outcome :=
| Exit (status : N)
| Uncaught (e : exn).

Definition exit_status (o : outcome) : N :=
  match o with
  | Exit status => status
  | Uncaught _ => 1
  end.

(** [main()] under [if __name__ == "__main__"], with [sys.argv] given:
    falling off the end of the script is exit status 0. *)
Definition main (argv : list pystr) (w : world fs) : outcome * world fs :=
  if negb (length argv =? 2)%nat then
    match print USAGE w with
    | (inr tt, w') => (Exit 1, w')             (* sys.exit(1) *)
    | (inl e, w') => (Uncaught e, w')
    end
  else
    let directory := nth 1 argv [] in
    match for_each (os_walk directory)
            (fun '(root, dirs, files) =>
               for_each files (fun file => visit_file root file)) w with
    | (inr tt, w') => (Exit 0, w')
    | (inl e, w') => (Uncaught e, w')
    end.

End Main.

(** ** An in-memory file system

    One instance of the interface, on which the statements below can be
    run: a finite map from paths to files.  A file records what reading it
    yields and whether opening it for writing is refused. *)

Record mfile := MFile {
  m_read : exn + pystr;      (* the text, or what [open]/[read] raises *)
  m_refuse : option exn      (* what [open(p, 'w')] raises, if it does *)
}.

Definition ENOENT (p : pystr) : exn :=
  Exn (py "[Errno 2] No such file or directory: '" ++ p ++ py "'").

Definition mem_read (p : pystr) (st : gmap pystr mfile) : exn + pystr :=
  match st !! p with
  | Some f => m_read f
  | None => inl (ENOENT p)
  end.

Definition mem_write (p text : pystr) (st : gmap pystr mfile)
  : option exn * gmap pystr mfile :=
  match st !! p with
  | Some f =>
      match m_refuse f with
      | Some e => (Some e, st)
      | None => (None, <[p := MFile (inr text) None]> st)
      end
  | None => (None, <[p := MFile (inr text) None]> st)
  end.

#[global] Instance MemFS : FileSystem (gmap pystr mfile) :=
  {| fs_read := mem_read; fs_write := mem_write |}.

(** ** A UTF-8 console

    One instance of the console: strict UTF-8, which has every code point
    except the surrogates, among them the ones ([U+DC80] to [U+DCFF]) that
    stand in a file name for bytes that are not UTF-8. *)

Definition utf8_can_encode (c : codepoint) : bool :=
  negb ((0xD800 <=? c) && (c <=? 0xDFFF)).

Definition UTF8_ENCODE_ERROR : exn :=
  Exn (py "'utf-8' codec can't encode character: surrogates not allowed").

Lemma utf8_ascii (c : codepoint) : c < 128 -> utf8_can_encode c = true.
Proof.
  intros Hc. unfold utf8_can_encode.
  destruct (N.leb_spec 0xD800 c) as [Hle|_]; [lia | reflexivity].
Qed.

#[global] Instance Utf8Console : Console :=
  {| can_encode := utf8_can_encode;
     encode_error := fun _ => UTF8_ENCODE_ERROR;
     ascii_encodable := utf8_ascii |}.

(** ** Notions used in the statements *)

(** A comment line in the words of the specification: after removing
    leading whitespace it starts with [//]. *)
Definition is_comment_line (line : pystr) : bool :=
  startswith (lstrip line) [SLASH; SLASH].

(** The lines that stay. *)
Definition kept (line : pystr) : bool := negb (is_comment_line line).

(** The simpler filter: drop every line that matches the pattern, without
    a documentation-marker exception. *)
Definition simple_process_content (content : pystr) : pystr :=
  join [NL] (List.filter (fun line => negb (re_match_comment line)) (split NL content)).

(** Block comments, which the script does not track: whether a scan for
    [/*] and [*/] that starts in state [inside] ends inside a block. *)
Fixpoint scan_block (inside : bool) (s : pystr) : bool :=
  match s with
  | a :: tail =>
      match tail with
      | b :: rest =>
          if inside then
            if (a =? STAR) && (b =? SLASH) then scan_block false rest
            else scan_block true tail
          else
            if (a =? SLASH) && (b =? STAR) then scan_block true rest
            else scan_block false tail
      | [] => inside
      end
  | [] => inside
  end.

(** Line [i] of [lines] lies inside a block comment: a block opened on an
    earlier line is still open where line [i] begins. *)
Definition inside_block (lines : list pystr) (i : nat) : bool :=
  foldl scan_block false (take i lines).

(** The reading of the specification under which lines inside a block
    comment are exempt from the comment-line rule. *)
Definition block_lines_exempt : Prop :=
  forall (lines : list pystr) (i : nat) (line : pystr),
    lines !! i = Some line ->
    inside_block lines i = true ->
    process_lines lines []
    = process_lines (take i lines) [] ++ line :: process_lines (drop (S i) lines) [].

(** Every file name in a tree, at any depth. *)
Fixpoint entry_filenames (e : entry) : list pystr :=
  match e with
  | File name => [name]
  | Dir _ children => flat_map entry_filenames children
  end.

Definition tree_filenames (entries : list entry) : list pystr :=
  flat_map entry_filenames entries.

Definition recognized (file : pystr) : bool :=
  endswith file (py ".ts") || endswith file (py ".js").

(** The paths [main] hands to [remove_inline_comments], in order. *)
Definition targets (scantree : pystr -> option (list entry)) (directory : pystr)
  : list pystr :=
  flat_map (fun '(root, _, files) =>
              flat_map (fun file => if recognized file then [path_join root file] else [])
                       files)
           (os_walk scantree directory).

(** The line printed by the [except] clause. *)
Definition error_line (file_path : pystr) (e : exn) : pystr :=
  py "Error processing " ++ file_path ++ py ": " ++ exn_str e.

(** What [main] does with one path: the call and its [except] clause. *)
Definition guarded_call `{Console} `{FileSystem fs} (file_path : pystr) : io fs unit :=
  try_except (remove_inline_comments file_path)
    (fun e => print (py "Error processing " ++ file_path ++ py ": " ++ exn_str e)).

(** The targets among the files of one directory, and over a whole walk:
    [targets] is [walk_targets] of the walk. *)
Definition file_targets (root : pystr) (files : list pystr) : list pystr :=
  flat_map (fun file => if recognized file then [path_join root file] else []) files.

Definition walk_targets (triples : list (pystr * list pystr * list pystr))
  : list pystr :=
  flat_map (fun '(root, _, files) => file_targets root files) triples.

(** What the call on one path is to report: the line for the outcome of
    its read and of its write, and the world once that line is printed. *)
Definition report_line `{FileSystem fs} (file_path : pystr) (w : world fs) : pystr :=
  match fs_read file_path (files w) with
  | inl e => py "Error processing " ++ file_path ++ py ": " ++ exn_str e
  | inr content =>
      match fs_write file_path (process_content content) (files w) with
      | (Some e, _) => py "Error processing " ++ file_path ++ py ": " ++ exn_str e
      | (None, _) => py "Processed: " ++ file_path
      end
  end.

(** The files once the call on one path has read and, if it could, written
    it. *)
Definition files_after `{FileSystem fs} (file_path : pystr) (w : world fs) : fs :=
  match fs_read file_path (files w) with
  | inl _ => files w
  | inr content => (fs_write file_path (process_content content) (files w)).2
  end.

Definition file_report `{FileSystem fs} (w : world fs) (file_path : pystr) : world fs :=
  World (files_after file_path w) (stdout w ++ [report_line file_path w]).

(** Every line that a run over [paths] from [w] is to print can be encoded
    by the console. *)
Fixpoint lines_printable `{Console} `{FileSystem fs}
    (paths : list pystr) (w : world fs) : bool :=
  match paths with
  | [] => true
  | file_path :: rest =>
      printable (report_line file_path w)
      && lines_printable rest (file_report w file_path)
  end.

(** The reading of the specification under which every recognized file
    is reported and the loop goes on, here on the in-memory file system
    with a UTF-8 console. *)
Definition every_outcome_reported : Prop :=
  forall (root file : pystr) (rest : list pystr) (w : world (gmap pystr mfile)),
    endswith file (py ".ts") || endswith file (py ".js") = true ->
    for_each (file :: rest) (visit_file root) w
    = for_each rest (visit_file root) (file_report w (path_join root file)).

(** The recognized files of a tree, each at its own path: the directory
    names from [top] down to the file, then the file name, joined as
    [os.path.join] does. *)
Fixpoint entry_target_paths (top : pystr) (e : entry) : list pystr :=
  match e with
  | File name => if recognized name then [path_join top name] else []
  | Dir name children =>
      flat_map (entry_target_paths (path_join top name)) children
  end.

Definition tree_target_paths (top : pystr) (entries : list entry) : list pystr :=
  flat_map (entry_target_paths top) entries.

(** The console line a path can give rise to. *)
Definition reports (file_path line : pystr) : Prop :=
  line = py "Processed: " ++ file_path
  \/ exists e, line = py "Error processing " ++ file_path ++ py ": " ++ exn_str e.

(** ** Sample inputs *)

Definition sample_trailing_comment : pystr :=
  py "  // a" ++ [NL] ++ py "  x = 1; // b" ++ [NL] ++ py "y".

Definition sample_indented_comment : pystr :=
  py "x" ++ [NL] ++ py "  // drop me" ++ [NL] ++ py "y".

Definition sample_jsdoc : pystr :=
  py "// a" ++ [NL] ++ py "  /** keep me */" ++ [NL] ++ py "// b".

Definition sample_block : list pystr :=
  [py "/*"; py "// old code"; py "*/"].

(** Sample runs use the in-memory file system. *)
Definition DECODE_ERROR : exn :=
  Exn (py "'utf-8' codec can't decode byte 0xff in position 0: invalid start byte").

Definition sample_files : gmap pystr mfile :=
  <[py "src/a.ts" := MFile (inl DECODE_ERROR) None]>
    (<[py "src/b.js" := MFile (inr (py "// note" ++ [NL] ++ py "x")) None]>
       (<[py "src/README.md" := MFile (inr (py "// text")) None]> ∅)).

Definition sample_tree (directory : pystr) : option (list entry) :=
  if decide (directory = py "src")
  then Some [File (py "a.ts"); File (py "README.md"); File (py "b.js")]
  else if decide (directory = py "docs")
  then Some [File (py "README.md"); Dir (py "img") [File (py "a.png"); File (py "js")]]
  else None.

Definition sample_deep_tree (directory : pystr) : option (list entry) :=
  if decide (directory = py "app")
  then Some [Dir (py "x.js") [File (py "b.js"); File (py "c.md")];
             File (py "a.ts");
             Dir (py "lib") [Dir (py "util") [File (py "d.ts")]]]
  else None.

Definition sample_filtered : gmap pystr mfile :=
  <[py "lib/m.ts" := MFile (inr (py "x")) None]> ∅.

(** A file name with a byte that is not UTF-8, as [os.walk] hands it out:
    the byte [0xff] stands as the surrogate [U+DCFF]. *)
Definition BAD_NAME : pystr := [0xDCFF] ++ py ".ts".

Definition sample_bad_tree (directory : pystr) : option (list entry) :=
  if decide (directory = py "n")
  then Some [File BAD_NAME; File (py "b.js")]
  else if decide (directory = py "m")
  then Some [File BAD_NAME]
  else if decide (directory = py "k")
  then Some [File (py "a.ts"); File BAD_NAME; File (py "b.js")]
  else None.

Definition sample_bad_files : gmap pystr mfile :=
  <[path_join (py "n") BAD_NAME := MFile (inl DECODE_ERROR) None]>
    (<[py "n/b.js" := MFile (inr (py "// note" ++ [NL] ++ py "x")) None]>
       (<[path_join (py "m") BAD_NAME := MFile (inr (py "// a" ++ [NL] ++ py "x")) None]>
          (<[py "k/a.ts" := MFile (inr (py "// c" ++ [NL] ++ py "y")) None]>
             (<[path_join (py "k") BAD_NAME := MFile (inr (py "z")) None]>
                (<[py "k/b.js" := MFile (inr (py "// d")) None]> ∅))))).

Definition sample_note : gmap pystr mfile :=
  <[py "lib/n.ts" := MFile (inr (py "// note" ++ [NL])) None]> ∅.

(** * Properties *)

(** The example of the specification. *)
Example spec_example :
  process_lines
    [py "const x = 1;"; py "// drop me"; py "/** keep me */"; py "  // also drop"] []
  = [py "const x = 1;"; py "/** keep me */"].
Proof. reflexivity. Qed.

(** ** Prefixes and whitespace *)

Lemma isspace_not_slash (c : codepoint) : isspace c = true -> (c =? SLASH) = false.
Proof.
  intros Hc. destruct (N.eqb_spec c SLASH) as [->|]; [discriminate Hc | reflexivity].
Qed.

Lemma startswith_app (p r : pystr) : startswith (p ++ r) p = true.
Proof.
  induction p as [|c p IH]; simpl; [reflexivity|].
  rewrite N.eqb_refl. exact IH.
Qed.

Lemma startswith_inv (s p : pystr) :
  startswith s p = true -> exists r, s = p ++ r.
Proof.
  revert s. induction p as [|c p IH]; intros s Hs.
  - exists s. reflexivity.
  - destruct s as [|d s]; simpl in Hs; [discriminate|].
    apply andb_prop in Hs as [Hd Hs]. apply N.eqb_eq in Hd as ->.
    destruct (IH _ Hs) as [r ->]. exists r. reflexivity.
Qed.

Lemma lstrip_suffix (s : pystr) : exists t, s = t ++ lstrip s.
Proof.
  induction s as [|c s [t IH]]; simpl.
  - exists []. reflexivity.
  - destruct (isspace c).
    + exists (c :: t). simpl. f_equal. exact IH.
    + exists []. reflexivity.
Qed.

Lemma lstrip_app_nonspace (a b : pystr) (c : codepoint) :
  isspace c = false -> lstrip (a ++ c :: b) = lstrip a ++ c :: b.
Proof.
  intros Hc. induction a as [|x a IH]; simpl.
  - rewrite Hc. reflexivity.
  - destruct (isspace x); [exact IH | reflexivity].
Qed.

Lemma rstrip_prefix (s : pystr) : exists t, s = rstrip s ++ t.
Proof.
  unfold rstrip. destruct (lstrip_suffix (rev s)) as [t Ht].
  exists (rev t). rewrite <- rev_app_distr, <- Ht. symmetry. apply rev_involutive.
Qed.

Lemma rstrip_app_nonspace (a b : pystr) (c : codepoint) :
  isspace c = false -> rstrip (a ++ c :: b) = a ++ c :: rstrip b.
Proof.
  intros Hc. unfold rstrip.
  rewrite rev_app_distr. simpl. rewrite <- app_assoc. simpl.
  rewrite (lstrip_app_nonspace _ _ _ Hc).
  rewrite rev_app_distr. simpl. rewrite rev_involutive, <- app_assoc.
  reflexivity.
Qed.

(** The pattern [^\s*//] matches exactly the lines that start with [//]
    once leading whitespace is removed. *)
Lemma re_match_comment_lstrip (line : pystr) :
  re_match_comment line = is_comment_line line.
Proof.
  unfold is_comment_line. induction line as [|c rest IH]; [reflexivity|].
  cbn [re_match_comment lstrip]. destruct (isspace c) eqn:Hc; [|reflexivity].
  rewrite IH. cbn [startswith]. rewrite (isspace_not_slash _ Hc).
  apply orb_false_r.
Qed.

(** A stripped comment line still starts with [//]. *)
Lemma comment_line_strip (line : pystr) :
  is_comment_line line = true -> startswith (strip line) [SLASH; SLASH] = true.
Proof.
  unfold is_comment_line, strip. intros Hm.
  destruct (startswith_inv _ _ Hm) as [r ->].
  change ([SLASH; SLASH] ++ r) with ([SLASH] ++ SLASH :: r).
  rewrite rstrip_app_nonspace by reflexivity.
  cbn [app startswith]. rewrite !N.eqb_refl. reflexivity.
Qed.

Lemma comment_line_not_jsdoc (line : pystr) :
  is_comment_line line = true -> startswith (strip line) JSDOC = false.
Proof.
  intros Hm. apply comment_line_strip in Hm.
  destruct (startswith_inv _ _ Hm) as [r ->]. reflexivity.
Qed.

(** Trailing whitespace does not matter for the documentation marker. *)
Lemma jsdoc_strip_lstrip (line : pystr) :
  startswith (strip line) JSDOC = startswith (lstrip line) JSDOC.
Proof.
  unfold strip. destruct (startswith (lstrip line) JSDOC) eqn:Hl.
  - destruct (startswith_inv _ _ Hl) as [r ->].
    change (JSDOC ++ r) with ([SLASH; STAR] ++ STAR :: r).
    rewrite rstrip_app_nonspace by reflexivity. reflexivity.
  - destruct (startswith (rstrip (lstrip line)) JSDOC) eqn:Hr; [|reflexivity].
    destruct (startswith_inv _ _ Hr) as [r Er].
    destruct (rstrip_prefix (lstrip line)) as [t Et].
    rewrite Er, <- app_assoc in Et. rewrite Et, startswith_app in Hl.
    discriminate.
Qed.

Lemma jsdoc_not_comment_line (line : pystr) :
  startswith (lstrip line) JSDOC = true -> is_comment_line line = false.
Proof.
  unfold is_comment_line. intros Hj.
  destruct (startswith_inv _ _ Hj) as [r ->]. reflexivity.
Qed.

(** ** The loop as a filter *)

Lemma process_lines_filter (lines acc : list pystr) :
  process_lines lines acc = acc ++ List.filter kept lines.
Proof.
  revert acc. induction lines as [|line rest IH]; intros acc.
  - simpl. symmetry. apply app_nil_r.
  - cbn [process_lines List.filter]. unfold kept at 1.
    rewrite re_match_comment_lstrip.
    destruct (is_comment_line line) eqn:Hm; cbn [negb].
    + rewrite (comment_line_not_jsdoc _ Hm). cbn [negb]. apply IH.
    + rewrite IH, <- app_assoc. reflexivity.
Qed.

Lemma process_lines_app (before after : list pystr) :
  process_lines (before ++ after) []
  = process_lines before [] ++ process_lines after [].
Proof.
  rewrite !process_lines_filter. simpl. apply List.filter_app.
Qed.

Lemma process_lines_cons (line : pystr) (after : list pystr) :
  process_lines (line :: after) []
  = (if is_comment_line line then [] else [line]) ++ process_lines after [].
Proof.
  rewrite !process_lines_filter. simpl. unfold kept at 1.
  destruct (is_comment_line line); reflexivity.
Qed.

Lemma process_lines_kept (lines : list pystr) :
  Forall (fun line => kept line = true) (process_lines lines []).
Proof.
  rewrite process_lines_filter. simpl. apply List.Forall_forall.
  intros line Hin. apply List.filter_In in Hin. tauto.
Qed.

(** ** [split] and [join] *)

Lemma split_nonempty (sep : codepoint) (s : pystr) : split sep s <> [].
Proof.
  destruct s as [|c s]; simpl; [discriminate|].
  destruct (c =? sep); [discriminate|].
  destruct (split sep s); discriminate.
Qed.

Lemma join_cons (sep piece : pystr) (rest : list pystr) :
  rest <> [] -> join sep (piece :: rest) = piece ++ sep ++ join sep rest.
Proof. destruct rest; [congruence | reflexivity]. Qed.

Lemma join_split (sep : codepoint) (s : pystr) : join [sep] (split sep s) = s.
Proof.
  induction s as [|c s IH]; [reflexivity|].
  cbn [split]. destruct (N.eqb_spec c sep) as [->|Hne].
  - rewrite join_cons by apply split_nonempty. rewrite IH. reflexivity.
  - pose proof (split_nonempty sep s) as Hs.
    destruct (split sep s) as [|piece pieces]; [congruence|].
    destruct pieces as [|q pieces]; simpl in *; congruence.
Qed.

Lemma split_sep_free (sep : codepoint) (s : pystr) :
  Forall (fun piece => ~ In sep piece) (split sep s).
Proof.
  induction s as [|c s IH]; cbn [split].
  - constructor; [intros []|constructor].
  - destruct (N.eqb_spec c sep) as [->|Hne].
    + constructor; [intros []|exact IH].
    + destruct (split sep s) as [|piece pieces].
      * constructor; [|constructor]. intros [E|[]]. congruence.
      * inversion IH as [|? ? Hp Hps]; subst. constructor; [|exact Hps].
        intros [E|Hin]; [congruence | exact (Hp Hin)].
Qed.

Lemma split_one (sep : codepoint) (piece : pystr) :
  ~ In sep piece -> split sep piece = [piece].
Proof.
  induction piece as [|c s IH]; intros Hfree; [reflexivity|].
  cbn [split]. destruct (N.eqb_spec c sep) as [->|Hne].
  - exfalso. apply Hfree. left. reflexivity.
  - rewrite IH; [reflexivity|]. intros Hin. apply Hfree. right. exact Hin.
Qed.

Lemma split_app_sep (sep : codepoint) (piece s : pystr) :
  ~ In sep piece -> split sep (piece ++ sep :: s) = piece :: split sep s.
Proof.
  induction piece as [|c p IH]; intros Hfree.
  - simpl. rewrite N.eqb_refl. reflexivity.
  - cbn [app split]. destruct (N.eqb_spec c sep) as [->|Hne].
    + exfalso. apply Hfree. left. reflexivity.
    + rewrite IH; [reflexivity|]. intros Hin. apply Hfree. right. exact Hin.
Qed.

Lemma split_join (sep : codepoint) (pieces : list pystr) :
  pieces <> [] ->
  Forall (fun piece => ~ In sep piece) pieces ->
  split sep (join [sep] pieces) = pieces.
Proof.
  induction pieces as [|piece rest IH]; intros Hne Hfree; [congruence|].
  inversion Hfree as [|? ? Hp Hrest]; subst.
  destruct rest as [|q rest].
  - simpl. apply split_one. exact Hp.
  - rewrite join_cons by discriminate. cbn [app].
    rewrite split_app_sep by exact Hp. f_equal. apply IH; [discriminate | exact Hrest].
Qed.

Lemma filter_kept_id (lines : list pystr) :
  Forall (fun line => kept line = true) lines -> List.filter kept lines = lines.
Proof.
  induction 1 as [|line rest Hk _ IH]; simpl; [reflexivity|].
  rewrite Hk, IH. reflexivity.
Qed.

Lemma process_lines_sep_free (content : pystr) :
  Forall (fun piece => ~ In NL piece) (process_lines (split NL content) []).
Proof.
  rewrite process_lines_filter. simpl.
  pose proof (split_sep_free NL content) as Hall.
  rewrite List.Forall_forall in Hall |- *.
  intros line Hin. apply Hall. apply List.filter_In in Hin. tauto.
Qed.

(** Running the loop on its own output changes nothing. *)
Lemma process_lines_idem (lines : list pystr) :
  process_lines (process_lines lines []) [] = process_lines lines [].
Proof.
  rewrite (process_lines_filter (process_lines lines [])). simpl.
  apply filter_kept_id, process_lines_kept.
Qed.

(** ** The line filter: claims C1 to C5, C10 *)

(** C1: a line that, once its leading whitespace is removed, does not start
    with [//] is preserved verbatim and in its original relative order: the
    output is the kept lines before it, the line itself, then the kept lines
    after it, joined by newlines; and the lines of the output that are not
    comment lines are, in order, those of the input. *)
Theorem noncomment_line_preserved
    (content : pystr) (before : list pystr) (line : pystr) (after : list pystr) :
  split NL content = before ++ line :: after ->
  startswith (lstrip line) (py "//") = false ->
  process_content content
  = join [NL] (process_lines before [] ++ line :: process_lines after [])
  /\ List.filter kept (process_lines (split NL content) [])
     = List.filter kept (split NL content).
Proof.
  intros Hsplit Hline. split.
  - unfold process_content. cbv zeta. rewrite Hsplit, process_lines_app, process_lines_cons.
    unfold is_comment_line. change [SLASH; SLASH] with (py "//"). rewrite Hline.
    reflexivity.
  - pose proof (process_lines_kept (split NL content)) as Hk.
    rewrite (filter_kept_id _ Hk). apply process_lines_filter.
Qed.

Lemma noncomment_line_preserved_witness :
  split NL sample_trailing_comment = [py "  // a"] ++ py "  x = 1; // b" :: [py "y"]
  /\ startswith (lstrip (py "  x = 1; // b")) (py "//") = false
  /\ process_content sample_trailing_comment = py "  x = 1; // b" ++ [NL] ++ py "y"
  /\ List.filter kept (process_lines (split NL sample_trailing_comment) [])
     = List.filter kept (split NL sample_trailing_comment).
Proof.
  split; [reflexivity|]. split; [reflexivity|].
  apply (noncomment_line_preserved sample_trailing_comment
           [py "  // a"] (py "  x = 1; // b") [py "y"]); reflexivity.
Defined.

(** C2: a line that starts with [//] after its leading whitespace is
    removed, and whose stripped form does not start with [/**], is removed:
    the output is the kept lines before it followed by the kept lines after
    it, and no line equal to it is in the output. *)
Theorem comment_line_removed
    (content : pystr) (before : list pystr) (line : pystr) (after : list pystr) :
  split NL content = before ++ line :: after ->
  startswith (lstrip line) (py "//") = true ->
  startswith (strip line) (py "/**") = false ->
  process_content content
  = join [NL] (process_lines before [] ++ process_lines after [])
  /\ ~ In line (process_lines (split NL content) []).
Proof.
  intros Hsplit Hline _. split.
  - unfold process_content. cbv zeta. rewrite Hsplit, process_lines_app, process_lines_cons.
    unfold is_comment_line. change [SLASH; SLASH] with (py "//"). rewrite Hline.
    reflexivity.
  - rewrite process_lines_filter. simpl. intros Hin.
    apply List.filter_In in Hin as [_ Hk]. unfold kept, is_comment_line in Hk.
    change [SLASH; SLASH] with (py "//") in Hk. rewrite Hline in Hk. discriminate.
Qed.

Lemma comment_line_removed_witness :
  split NL sample_indented_comment = [py "x"] ++ py "  // drop me" :: [py "y"]
  /\ startswith (lstrip (py "  // drop me")) (py "//") = true
  /\ startswith (strip (py "  // drop me")) (py "/**") = false
  /\ process_content sample_indented_comment = py "x" ++ [NL] ++ py "y"
  /\ ~ In (py "  // drop me") (process_lines (split NL sample_indented_comment) []).
Proof.
  split; [reflexivity|]. split; [reflexivity|]. split; [reflexivity|].
  apply (comment_line_removed sample_indented_comment
           [py "x"] (py "  // drop me") [py "y"]); reflexivity.
Defined.

(** C3: a line that starts with [/**] after its leading whitespace is
    removed is kept, between the kept lines before it and the kept lines
    after it. *)
Theorem jsdoc_line_kept
    (content : pystr) (before : list pystr) (line : pystr) (after : list pystr) :
  split NL content = before ++ line :: after ->
  startswith (lstrip line) (py "/**") = true ->
  process_content content
  = join [NL] (process_lines before [] ++ line :: process_lines after []).
Proof.
  intros Hsplit Hline.
  unfold process_content. cbv zeta. rewrite Hsplit, process_lines_app, process_lines_cons.
  rewrite (jsdoc_not_comment_line line Hline). reflexivity.
Qed.

Lemma jsdoc_line_kept_witness :
  split NL sample_jsdoc = [py "// a"] ++ py "  /** keep me */" :: [py "// b"]
  /\ startswith (lstrip (py "  /** keep me */")) (py "/**") = true
  /\ process_content sample_jsdoc = py "  /** keep me */".
Proof.
  split; [reflexivity|]. split; [reflexivity|].
  apply (jsdoc_line_kept sample_jsdoc
           [py "// a"] (py "  /** keep me */") [py "// b"]); reflexivity.
Defined.

(** C4: the filter is idempotent on file contents. *)
Theorem process_content_idempotent (content : pystr) :
  process_content (process_content content) = process_content content.
Proof.
  unfold process_content. cbv zeta.
  pose proof (process_lines_sep_free content) as Hfree.
  pose proof (process_lines_idem (split NL content)) as Hidem.
  destruct (process_lines (split NL content) []) as [|line rest] eqn:Hk.
  - reflexivity.
  - rewrite split_join by (discriminate || exact Hfree).
    rewrite Hidem. reflexivity.
Qed.

(** The script keeps no state from one line to the next: each line is
    classified on its own, whatever surrounds it. *)
Lemma process_lines_at (lines : list pystr) (i : nat) (line : pystr) :
  lines !! i = Some line ->
  process_lines lines []
  = process_lines (take i lines) []
    ++ (if is_comment_line line then [] else [line])
    ++ process_lines (drop (S i) lines) [].
Proof.
  intros Hi. rewrite <- (take_drop_middle lines i line Hi) at 1.
  rewrite process_lines_app, process_lines_cons. reflexivity.
Qed.

(** C5, as stated, fails: in the three-line file [/*], [// old code], [*/]
    the middle line lies inside the block comment and is dropped by the
    comment-line rule. *)
Lemma block_line_dropped :
  sample_block !! 1%nat = Some (py "// old code")
  /\ inside_block sample_block 1 = true
  /\ split NL (py "/*" ++ [NL] ++ py "// old code" ++ [NL] ++ py "*/") = sample_block
  /\ process_content (py "/*" ++ [NL] ++ py "// old code" ++ [NL] ++ py "*/")
     = py "/*" ++ [NL] ++ py "*/"
  /\ ~ block_lines_exempt.
Proof.
  repeat (split; [reflexivity|]).
  intros Hclaim.
  specialize (Hclaim sample_block 1%nat (py "// old code") eq_refl eq_refl).
  discriminate Hclaim.
Qed.

(** C5, amended: the filter has no notion of a block comment.  A line
    inside a [/* ... */] block is classified like any other line: it is
    dropped when it starts with [//] after its leading whitespace is
    removed, and kept in place otherwise. *)
Theorem block_line_classified_alone (lines : list pystr) (i : nat) (line : pystr) :
  lines !! i = Some line ->
  inside_block lines i = true ->
  process_lines lines []
  = process_lines (take i lines) []
    ++ (if startswith (lstrip line) (py "//") then [] else [line])
    ++ process_lines (drop (S i) lines) [].
Proof.
  intros Hi _. exact (process_lines_at lines i line Hi).
Qed.

Lemma block_line_classified_alone_witness :
  [py "/*"; py " * text"; py "*/"] !! 1%nat = Some (py " * text")
  /\ inside_block [py "/*"; py " * text"; py "*/"] 1 = true
  /\ process_lines [py "/*"; py " * text"; py "*/"] []
     = [py "/*"] ++ [py " * text"] ++ [py "*/"].
Proof.
  split; [reflexivity|]. split; [reflexivity|].
  apply (block_line_classified_alone [py "/*"; py " * text"; py "*/"] 1 (py " * text"));
    reflexivity.
Defined.

(** C10: the filter equals the simpler one that drops every line matching
    the pattern; a line that matches the pattern starts, once stripped, with
    [//] and so does not start with [/**]: the exception never fires. *)
Theorem jsdoc_exception_never_fires (content line : pystr) :
  process_content content = simple_process_content content
  /\ implb (re_match_comment line)
           (startswith (strip line) (py "//")
            && negb (startswith (strip line) (py "/**"))) = true.
Proof.
  split.
  - unfold process_content, simple_process_content. cbv zeta.
    rewrite process_lines_filter. simpl. f_equal.
    apply List.filter_ext. intros l. unfold kept.
    rewrite re_match_comment_lstrip. reflexivity.
  - rewrite re_match_comment_lstrip.
    destruct (is_comment_line line) eqn:Hm; [|reflexivity].
    change (py "//") with [SLASH; SLASH]. change (py "/**") with JSDOC.
    rewrite (comment_line_strip _ Hm), (comment_line_not_jsdoc _ Hm).
    reflexivity.
Qed.

(** ** The driver *)

Section DriverFacts.
Context `{Console} `{FileSystem fs}.
Variable scantree : pystr -> option (list entry).

Lemma printable_app (a b : pystr) :
  printable (a ++ b) = printable a && printable b.
Proof. apply List.forallb_app. Qed.

Lemma printable_ascii (line : pystr) :
  forallb (fun c => c <? 128) line = true -> printable line = true.
Proof.
  unfold printable. rewrite !List.forallb_forall. intros Hascii c Hc.
  apply ascii_encodable, N.ltb_lt, Hascii, Hc.
Qed.

Lemma print_printable (line : pystr) (w : world fs) :
  printable line = true ->
  print line w = (inr tt, World (files w) (stdout w ++ [line])).
Proof. intros Hp. unfold print. rewrite Hp. reflexivity. Qed.

Lemma print_unprintable (line : pystr) (w : world fs) :
  printable line = false -> print line w = (inl (encode_error line), w).
Proof. intros Hp. unfold print. rewrite Hp. reflexivity. Qed.

(** One call of [remove_inline_comments], by the outcome of its read and
    of its write. *)
Lemma remove_inline_comments_run (file_path : pystr) (w : world fs) :
  remove_inline_comments file_path w
  = match fs_read file_path (files w) with
    | inl e => (inl e, w)
    | inr content =>
        match fs_write file_path (process_content content) (files w) with
        | (Some e, files') => (inl e, World files' (stdout w))
        | (None, files') =>
            print (py "Processed: " ++ file_path) (World files' (stdout w))
        end
    end.
Proof.
  unfold remove_inline_comments, bind, read_text, write_text.
  destruct (fs_read file_path (files w)) as [e|content]; [reflexivity|].
  destruct (fs_write file_path (process_content content) (files w)) as [[e|] files'];
    reflexivity.
Qed.

(** When the line to report can be encoded, the guarded call prints it and
    returns. *)
Lemma guarded_call_reports (file_path : pystr) (w : world fs) :
  printable (report_line file_path w) = true ->
  guarded_call file_path w = (inr tt, file_report w file_path).
Proof.
  unfold guarded_call, try_except, file_report, report_line, files_after.
  rewrite remove_inline_comments_run.
  destruct (fs_read file_path (files w)) as [e|content].
  - intros Hp. rewrite (print_printable _ _ Hp). reflexivity.
  - destruct (fs_write file_path (process_content content) (files w)) as [[e|] files'];
      intros Hp; rewrite (print_printable _ _ Hp); reflexivity.
Qed.

(** Whatever the console does, the files after the guarded call are those
    after its read and write. *)
Lemma guarded_call_files (file_path : pystr) (w : world fs) :
  files (guarded_call file_path w).2 = files_after file_path w.
Proof.
  unfold guarded_call, try_except, files_after, print.
  rewrite remove_inline_comments_run.
  destruct (fs_read file_path (files w)) as [e|content].
  - destruct (printable _); reflexivity.
  - destruct (fs_write file_path (process_content content) (files w)) as [[e|] files'];
      unfold print; cbn [snd];
      repeat (destruct (printable _); cbn [files snd]); reflexivity.
Qed.

(** A path the console cannot encode: every line the call could print
    holds the path, so the call ends in an exception, with nothing
    printed, after the file was read and, if it could be, written. *)
Lemma guarded_call_unprintable (file_path : pystr) (w : world fs) :
  printable file_path = false ->
  exists e,
    guarded_call file_path w = (inl e, World (files_after file_path w) (stdout w)).
Proof.
  intros Hp.
  assert (Herr : forall e, printable (error_line file_path e) = false).
  { intros e. unfold error_line. rewrite !printable_app, Hp.
    rewrite andb_false_l, andb_false_r. reflexivity. }
  assert (Hok : printable (py "Processed: " ++ file_path) = false).
  { rewrite printable_app, Hp. apply andb_false_r. }
  unfold guarded_call, try_except, files_after.
  rewrite remove_inline_comments_run. destruct w as [files0 out]. cbn [files stdout].
  destruct (fs_read file_path files0) as [e|content].
  - eexists. apply print_unprintable, Herr.
  - destruct (fs_write file_path (process_content content) files0) as [[e|] files'];
      cbn [snd].
    + eexists. apply (print_unprintable _ (World files' out)), Herr.
    + rewrite (print_unprintable _ _ Hok).
      eexists. apply (print_unprintable _ (World files' out)), Herr.
Qed.

Lemma visit_file_guarded (root file : pystr) (w : world fs) :
  visit_file root file w
  = if endswith file (py ".ts") || endswith file (py ".js")
    then guarded_call (path_join root file) w
    else (inr tt, w).
Proof. unfold visit_file. destruct (_ || _); reflexivity. Qed.

Lemma for_each_app {A} (xs ys : list A) (body : A -> io fs unit) (w : world fs) :
  for_each (xs ++ ys) body w = (for_each xs body ;;; for_each ys body) w.
Proof.
  revert w. induction xs as [|x xs IH]; intros w; simpl.
  - reflexivity.
  - unfold bind in *. destruct (body x w) as [[e|[]] w']; [reflexivity|].
    apply IH.
Qed.

(** A run over paths whose lines can all be encoded reports each path in
    turn. *)
Lemma guarded_loop_reports (paths : list pystr) (w : world fs) :
  lines_printable paths w = true ->
  for_each paths guarded_call w = (inr tt, foldl file_report w paths).
Proof.
  revert w. induction paths as [|p rest IH]; intros w Hp; [reflexivity|].
  cbn [lines_printable] in Hp. apply andb_prop in Hp as [Hline Hrest].
  cbn [for_each foldl]. unfold bind.
  rewrite (guarded_call_reports p w Hline). apply IH, Hrest.
Qed.

(** The inner loop is the guarded call on each recognized file. *)
Lemma inner_loop_targets (root : pystr) (files : list pystr) (w : world fs) :
  for_each files (fun file => visit_file root file) w
  = for_each
      (flat_map (fun file => if recognized file then [path_join root file] else [])
                files)
      guarded_call w.
Proof.
  revert w. induction files as [|file rest IH]; intros w; [reflexivity|].
  cbn [for_each flat_map]. unfold bind at 1. rewrite visit_file_guarded.
  unfold recognized at 1.
  destruct (endswith file (py ".ts") || endswith file (py ".js")).
  - cbn [app for_each]. unfold bind.
    destruct (guarded_call (path_join root file) w) as [[e|[]] w']; [reflexivity|].
    apply IH.
  - apply IH.
Qed.

Lemma walk_loop_targets (triples : list (pystr * list pystr * list pystr))
    (w : world fs) :
  for_each triples
    (fun '(root, dirs, files) => for_each files (fun file => visit_file root file)) w
  = for_each
      (flat_map (fun '(root, _, files) =>
                   flat_map (fun file => if recognized file
                                         then [path_join root file] else [])
                            files)
                triples)
      guarded_call w.
Proof.
  revert w. induction triples as [|[[root dirs] files] rest IH]; intros w;
    [reflexivity|].
  cbn [for_each flat_map]. rewrite for_each_app. unfold bind.
  rewrite inner_loop_targets.
  destruct (for_each _ guarded_call w) as [[e|[]] w']; [reflexivity|].
  apply IH.
Qed.

(** With a directory argument, [main] is the guarded call on each target
    in turn. *)
Lemma main_runs_targets (prog directory : pystr) (w : world fs) :
  main scantree [prog; directory] w
  = match for_each (targets scantree directory) guarded_call w with
    | (inr tt, w') => (Exit 0, w')
    | (inl e, w') => (Uncaught e, w')
    end.
Proof.
  unfold main, targets. cbn [length Nat.eqb negb nth].
  rewrite walk_loop_targets. reflexivity.
Qed.

Lemma main_reports (prog directory : pystr) (w : world fs) :
  lines_printable (targets scantree directory) w = true ->
  main scantree [prog; directory] w
  = (Exit 0, foldl file_report w (targets scantree directory)).
Proof.
  intros Hp. rewrite main_runs_targets, (guarded_loop_reports _ _ Hp). reflexivity.
Qed.

(** A run that meets a path the console cannot encode, after paths whose
    lines it could encode, ends there in an uncaught exception. *)
Lemma main_aborts (prog directory : pystr) (before : list pystr)
    (file_path : pystr) (after : list pystr) (w : world fs) :
  targets scantree directory = before ++ file_path :: after ->
  lines_printable before w = true ->
  printable file_path = false ->
  exists e,
    main scantree [prog; directory] w
    = (Uncaught e,
       World (files_after file_path (foldl file_report w before))
             (stdout (foldl file_report w before))).
Proof.
  intros Htargets Hbefore Hpath.
  rewrite main_runs_targets, Htargets, for_each_app. unfold bind.
  rewrite (guarded_loop_reports _ _ Hbefore). cbn [for_each]. unfold bind.
  destruct (guarded_call_unprintable file_path (foldl file_report w before) Hpath)
    as [e ->].
  exists e. reflexivity.
Qed.

(** The lines a reported run adds to the console, one per path. *)
Lemma foldl_report_lines (paths : list pystr) (w : world fs) :
  exists lines,
    stdout (foldl file_report w paths) = stdout w ++ lines
    /\ Forall2 reports paths lines.
Proof.
  revert w. induction paths as [|p rest IH]; intros w.
  - exists []. split; [symmetry; apply app_nil_r | constructor].
  - cbn [foldl]. destruct (IH (file_report w p)) as [lines [Hout Hrep]].
    exists (report_line p w :: lines). split.
    + rewrite Hout. cbn [file_report stdout]. rewrite <- app_assoc. reflexivity.
    + constructor; [|exact Hrep]. unfold reports, report_line.
      destruct (fs_read p (files w)) as [e|content]; [right; eauto|].
      destruct (fs_write p (process_content content) (files w)) as [[e|] files'];
        [right; eauto | left; reflexivity].
Qed.

End DriverFacts.

(** ** Trees *)

Lemma entry_nested_ind (P : entry -> Prop) :
  (forall name, P (File name)) ->
  (forall name children, Forall P children -> P (Dir name children)) ->
  forall e, P e.
Proof.
  intros HFile HDir. fix rec 1. intros [name|name children].
  - apply HFile.
  - apply HDir. induction children as [|child rest IH]; constructor.
    + apply rec.
    + exact IH.
Qed.

Lemma filenames_in_tree (entries : list entry) (file : pystr) :
  In file (filenames entries) -> In file (tree_filenames entries).
Proof.
  unfold filenames, tree_filenames. rewrite !List.in_flat_map.
  intros [e [He Hf]]. exists e. split; [exact He|].
  destruct e as [name|name children]; [exact Hf | destruct Hf].
Qed.

(** Every file name that [os.walk] reports is the name of a file of the
    tree. *)
Lemma walk_entry_files (e : entry) :
  forall top root dirs files file,
    In (root, dirs, files) (walk_entry top e) ->
    In file files -> In file (entry_filenames e).
Proof.
  induction e as [name|name children IH] using entry_nested_ind;
    intros top root dirs files file Hin Hfile.
  - destruct Hin.
  - cbn [walk_entry entry_filenames] in *. destruct Hin as [Heq|Hin].
    + injection Heq as _ _ <-. apply (filenames_in_tree children file Hfile).
    + apply List.in_flat_map in Hin as [child [Hchild Hin]].
      apply List.in_flat_map. exists child. split; [exact Hchild|].
      rewrite List.Forall_forall in IH. exact (IH child Hchild _ _ _ _ _ Hin Hfile).
Qed.

Lemma walk_files (top : pystr) (entries : list entry) :
  forall root dirs files file,
    In (root, dirs, files) (walk top entries) ->
    In file files -> In file (tree_filenames entries).
Proof.
  intros root dirs files file [Heq|Hin] Hfile.
  - injection Heq as _ _ <-. apply (filenames_in_tree entries file Hfile).
  - apply List.in_flat_map in Hin as [e [He Hin]].
    apply List.in_flat_map. exists e. split; [exact He|].
    exact (walk_entry_files e _ _ _ _ _ Hin Hfile).
Qed.

Lemma flat_map_nil {A B} (f : A -> list B) (xs : list A) :
  (forall x, In x xs -> f x = []) -> flat_map f xs = [].
Proof.
  induction xs as [|x xs IH]; intros Hf; [reflexivity|].
  simpl. rewrite (Hf x) by (left; reflexivity).
  apply IH. intros y Hy. apply Hf. right. exact Hy.
Qed.

Lemma no_recognized_no_targets (scantree : pystr -> option (list entry))
    (directory : pystr) :
  (forall entries, scantree directory = Some entries ->
     Forall (fun name => recognized name = false) (tree_filenames entries)) ->
  targets scantree directory = [].
Proof.
  intros Hnone. unfold targets, os_walk.
  destruct (scantree directory) as [entries|] eqn:Hscan; [|reflexivity].
  specialize (Hnone entries eq_refl). rewrite List.Forall_forall in Hnone.
  apply flat_map_nil. intros [[root dirs] files] Hin.
  apply flat_map_nil. intros file Hfile.
  rewrite (Hnone file (walk_files _ _ _ _ _ _ Hin Hfile)). reflexivity.
Qed.

(** ** The driver: claims C6 to C9 *)

(** C6: with an argument count other than one, [main] prints the usage
    message, exits with status 1 and leaves every file as it was. *)
Theorem wrong_argument_count `{Console} `{FileSystem fs}
    (scantree : pystr -> option (list entry)) (argv : list pystr) (w : world fs) :
  length argv <> 2%nat ->
  main scantree argv w = (Exit 1, World (files w) (stdout w ++ [USAGE])).
Proof.
  intros Hlen. unfold main.
  destruct (Nat.eqb_spec (length argv) 2) as [Heq|_]; [contradiction|].
  cbn [negb]. rewrite print_printable; [reflexivity|].
  apply printable_ascii. reflexivity.
Qed.

Lemma wrong_argument_count_witness :
  main sample_tree [py "comments.py"] (World sample_files [])
  = (Exit 1, World sample_files [USAGE])
  /\ main sample_tree [py "comments.py"; py "src"; py "docs"] (World sample_files [])
     = (Exit 1, World sample_files [USAGE]).
Proof.
  split.
  - apply (wrong_argument_count sample_tree [py "comments.py"] (World sample_files [])).
    simpl. lia.
  - apply (wrong_argument_count sample_tree [py "comments.py"; py "src"; py "docs"]
             (World sample_files [])).
    simpl. lia.
Defined.

(** C7, as stated, fails: a file whose path the console cannot encode is
    not reported.  In directory [n] the read of the first file raises a
    decoding error; printing the error line raises in turn, inside the
    [except] clause, so nothing is printed, the next file is not looked at
    and the run ends with status 1.  In directory [m] the file is processed
    and written, and no [Processed:] line follows. *)
Lemma unencodable_path_not_reported :
  (endswith BAD_NAME (py ".ts") || endswith BAD_NAME (py ".js") = true
   /\ fs_read (path_join (py "n") BAD_NAME) sample_bad_files = inl DECODE_ERROR
   /\ main sample_bad_tree [py "comments.py"; py "n"] (World sample_bad_files [])
      = (Uncaught UTF8_ENCODE_ERROR, World sample_bad_files [])
   /\ exit_status
        (main sample_bad_tree [py "comments.py"; py "n"] (World sample_bad_files [])).1
      = 1)
  /\ (fs_read (path_join (py "m") BAD_NAME) sample_bad_files
      = inr (py "// a" ++ [NL] ++ py "x")
      /\ main sample_bad_tree [py "comments.py"; py "m"] (World sample_bad_files [])
         = (Uncaught UTF8_ENCODE_ERROR,
            World (<[path_join (py "m") BAD_NAME := MFile (inr (py "x")) None]>
                     sample_bad_files) []))
  /\ ~ every_outcome_reported.
Proof.
  split; [repeat split; vm_compute; reflexivity|].
  split; [split; vm_compute; reflexivity|].
  intros Hclaim.
  specialize (Hclaim (py "n") BAD_NAME [] (World sample_bad_files []) eq_refl).
  vm_compute in Hclaim. discriminate Hclaim.
Qed.

(** C7, amended: for a file with a recognized extension whose line the
    console can encode, a failure to read, decode or write it is caught and
    printed as [Error processing <path>: <message>], a success prints
    [Processed: <path>], and the loop goes on with the next file; a run in
    which every line to print can be encoded prints these lines, one per
    file in the order of the walk, and ends with status 0. *)
Theorem file_outcome_reported `{Console} `{FileSystem fs}
    (scantree : pystr -> option (list entry))
    (root file : pystr) (rest : list pystr) (w1 : world fs)
    (prog directory : pystr) (w : world fs) :
  endswith file (py ".ts") || endswith file (py ".js") = true ->
  printable (report_line (path_join root file) w1) = true ->
  lines_printable (targets scantree directory) w = true ->
  (visit_file root file w1 = (inr tt, file_report w1 (path_join root file))
   /\ for_each (file :: rest) (visit_file root) w1
      = for_each rest (visit_file root) (file_report w1 (path_join root file)))
  /\ main scantree [prog; directory] w
     = (Exit 0, foldl file_report w (targets scantree directory)).
Proof.
  intros Hext Hline Hrun.
  assert (Hvisit : visit_file root file w1
                   = (inr tt, file_report w1 (path_join root file))).
  { rewrite visit_file_guarded, Hext. apply guarded_call_reports, Hline. }
  split; [split; [exact Hvisit|] |].
  - cbn [for_each]. unfold bind. rewrite Hvisit. reflexivity.
  - apply main_reports, Hrun.
Qed.

Lemma file_outcome_reported_witness :
  (endswith (py "a.ts") (py ".ts") || endswith (py "a.ts") (py ".js") = true
   /\ printable (report_line (py "src/a.ts") (World sample_files [])) = true
   /\ lines_printable (targets sample_tree (py "src")) (World sample_files []) = true)
  /\ (visit_file (py "src") (py "a.ts") (World sample_files [])
      = (inr tt,
         World sample_files
           [py "Error processing src/a.ts: " ++ exn_str DECODE_ERROR])
      /\ for_each [py "a.ts"; py "b.js"] (visit_file (py "src")) (World sample_files [])
         = for_each [py "b.js"] (visit_file (py "src"))
             (World sample_files
                [py "Error processing src/a.ts: " ++ exn_str DECODE_ERROR]))
  /\ main sample_tree [py "comments.py"; py "src"] (World sample_files [])
     = (Exit 0,
        World (<[py "src/b.js" := MFile (inr (py "x")) None]> sample_files)
          [py "Error processing src/a.ts: " ++ exn_str DECODE_ERROR;
           py "Processed: src/b.js"]).
Proof.
  split; [repeat split; vm_compute; reflexivity|].
  pose proof (file_outcome_reported sample_tree (py "src") (py "a.ts") [py "b.js"]
                (World sample_files []) (py "comments.py") (py "src")
                (World sample_files []) eq_refl eq_refl eq_refl) as Hrun.
  vm_compute in Hrun |- *. exact Hrun.
Defined.

(** A whole run on the sample directory: the unreadable file is reported,
    the other recognized file is processed, the third file is not touched. *)
Example sample_run :
  let '(status, w) := main sample_tree [py "comments.py"; py "src"] (World sample_files []) in
  status = Exit 0
  /\ stdout w = [py "Error processing src/a.ts: " ++ exn_str DECODE_ERROR;
                 py "Processed: src/b.js"]
  /\ files w !! py "src/b.js" = Some (MFile (inr (py "x")) None)
  /\ files w !! py "src/a.ts" = sample_files !! py "src/a.ts"
  /\ files w !! py "src/README.md" = sample_files !! py "src/README.md".
Proof. vm_compute. repeat split. Qed.

(** C8: [main] is the guarded call of [remove_inline_comments] on each of
    its targets in turn; when no file name of the tree ends in [.ts] or
    [.js] there is no target, so the filter is called on no file, and the
    files (and the console) are left as they were. *)
Theorem unrecognized_tree_untouched `{Console} `{FileSystem fs}
    (scantree : pystr -> option (list entry)) (prog directory : pystr)
    (entries : list entry) (w : world fs) :
  scantree directory = Some entries ->
  Forall (fun name => endswith name (py ".ts") = false
                      /\ endswith name (py ".js") = false)
         (tree_filenames entries) ->
  main scantree [prog; directory] w
  = match for_each (targets scantree directory) guarded_call w with
    | (inr tt, w') => (Exit 0, w')
    | (inl e, w') => (Uncaught e, w')
    end
  /\ targets scantree directory = []
  /\ main scantree [prog; directory] w = (Exit 0, w).
Proof.
  intros Hscan Hnames.
  assert (Hnone : targets scantree directory = []).
  { apply no_recognized_no_targets. intros entries' Hscan'.
    rewrite Hscan in Hscan'. injection Hscan' as <-.
    eapply List.Forall_impl; [|exact Hnames].
    intros name [Hts Hjs]. unfold recognized. rewrite Hts, Hjs. reflexivity. }
  split; [apply main_runs_targets|]. split; [exact Hnone|].
  rewrite main_runs_targets, Hnone. reflexivity.
Qed.

Lemma unrecognized_tree_untouched_witness :
  sample_tree (py "docs")
  = Some [File (py "README.md"); Dir (py "img") [File (py "a.png"); File (py "js")]]
  /\ Forall (fun name => endswith name (py ".ts") = false
                         /\ endswith name (py ".js") = false)
            [py "README.md"; py "a.png"; py "js"]
  /\ targets sample_tree (py "docs") = []
  /\ main sample_tree [py "comments.py"; py "docs"] (World sample_files [])
     = (Exit 0, World sample_files []).
Proof.
  split; [reflexivity|].
  split; [repeat (constructor; [split; reflexivity|]); constructor|].
  apply (unrecognized_tree_untouched sample_tree (py "comments.py") (py "docs")
           [File (py "README.md"); Dir (py "img") [File (py "a.png"); File (py "js")]]
           (World sample_files [])).
  - reflexivity.
  - repeat (constructor; [split; reflexivity|]). constructor.
Defined.

(** C9: a file whose content is the single line [// note], with or without
    a newline after it, is written back as the empty string. *)
Theorem lone_comment_file_emptied `{Console} `{FileSystem fs}
    (file_path content : pystr) (w : world fs) :
  content = py "// note" \/ content = py "// note" ++ [NL] ->
  fs_read file_path (files w) = inr content ->
  process_content content = []
  /\ remove_inline_comments file_path w
     = (write_text file_path [] ;;; print (py "Processed: " ++ file_path)) w.
Proof.
  intros Hcontent Hread.
  assert (Hempty : process_content content = []).
  { destruct Hcontent as [-> | ->]; reflexivity. }
  split; [exact Hempty|].
  unfold remove_inline_comments, bind at 1, read_text.
  rewrite Hread, Hempty. reflexivity.
Qed.

Lemma lone_comment_file_emptied_witness :
  mem_read (py "lib/n.ts") sample_note = inr (py "// note" ++ [NL])
  /\ process_content (py "// note" ++ [NL]) = []
  /\ remove_inline_comments (py "lib/n.ts") (World sample_note [])
     = (inr tt,
        World (<[py "lib/n.ts" := MFile (inr []) None]> sample_note)
              [py "Processed: lib/n.ts"]).
Proof.
  split; [reflexivity|].
  pose proof (lone_comment_file_emptied (py "lib/n.ts") (py "// note" ++ [NL])
                (World sample_note []) (or_intror eq_refl) eq_refl) as Hrun.
  vm_compute in Hrun |- *. exact Hrun.
Defined.

(** * Further properties of the line filter *)

Lemma lstrip_split (s : pystr) :
  exists t, Forall (fun c => isspace c = true) t /\ s = t ++ lstrip s.
Proof.
  induction s as [|c s [t [Ht IH]]]; simpl.
  - exists []. split; [constructor | reflexivity].
  - destruct (isspace c) eqn:Hc.
    + exists (c :: t). split; [constructor; assumption|]. simpl. f_equal. exact IH.
    + exists []. split; [constructor | reflexivity].
Qed.

Lemma lstrip_spaces_app (ws s : pystr) :
  Forall (fun c => isspace c = true) ws -> lstrip (ws ++ s) = lstrip s.
Proof.
  induction 1 as [|c ws Hc _ IH]; simpl; [reflexivity|].
  rewrite Hc. exact IH.
Qed.

(** X1: the pattern [^\s*//], read as a language: a run of whitespace, then
    [//], then anything.  The backtracking matcher accepts exactly the
    strings of that shape. *)
Theorem re_match_comment_language (line : pystr) :
  re_match_comment line = true
  <-> exists ws rest,
        Forall (fun c => isspace c = true) ws
        /\ line = ws ++ [SLASH; SLASH] ++ rest.
Proof.
  rewrite re_match_comment_lstrip. unfold is_comment_line. split.
  - intros Hm. destruct (startswith_inv _ _ Hm) as [rest Hrest].
    destruct (lstrip_split line) as [ws [Hws Hline]].
    exists ws, rest. split; [exact Hws|]. rewrite <- Hrest. exact Hline.
  - intros [ws [rest [Hws ->]]].
    rewrite (lstrip_spaces_app _ _ Hws). reflexivity.
Qed.

Lemma process_content_filter (content : pystr) :
  process_content content = join [NL] (List.filter kept (split NL content)).
Proof.
  unfold process_content. cbv zeta. rewrite process_lines_filter. reflexivity.
Qed.

Lemma kept_false_iff (line : pystr) :
  kept line = true <-> is_comment_line line = false.
Proof. unfold kept. destruct (is_comment_line line); simpl; split; congruence. Qed.

(** X2: no comment line is left: split again on newlines, the output has no
    line that starts with [//] after leading whitespace, also when every
    line was dropped and the output is the empty text. *)
Theorem output_has_no_comment_line (content : pystr) :
  Forall (fun line => is_comment_line line = false)
         (split NL (process_content content)).
Proof.
  unfold process_content. cbv zeta.
  pose proof (process_lines_sep_free content) as Hfree.
  pose proof (process_lines_kept (split NL content)) as Hkept.
  destruct (process_lines (split NL content) []) as [|line rest] eqn:Hk.
  - repeat constructor.
  - rewrite split_join by (discriminate || exact Hfree).
    eapply List.Forall_impl; [|exact Hkept].
    intros l Hl. apply kept_false_iff. exact Hl.
Qed.

(** X3: a text without comment lines goes through unchanged, character for
    character, whatever its line endings and blank lines. *)
Theorem comment_free_content_unchanged (content : pystr) :
  Forall (fun line => is_comment_line line = false) (split NL content) ->
  process_content content = content.
Proof.
  intros Hfree. rewrite process_content_filter.
  rewrite filter_kept_id.
  - apply join_split.
  - eapply List.Forall_impl; [|exact Hfree].
    intros l Hl. apply kept_false_iff. exact Hl.
Qed.

Lemma comment_free_content_unchanged_witness :
  Forall (fun line => is_comment_line line = false)
         (split NL (py "a = 1; // why" ++ [NL; NL] ++ py "  /* b */" ++ [NL]))
  /\ process_content (py "a = 1; // why" ++ [NL; NL] ++ py "  /* b */" ++ [NL])
     = py "a = 1; // why" ++ [NL; NL] ++ py "  /* b */" ++ [NL].
Proof.
  split; [repeat constructor|].
  apply (comment_free_content_unchanged
           (py "a = 1; // why" ++ [NL; NL] ++ py "  /* b */" ++ [NL])).
  repeat constructor.
Defined.

Lemma split_snoc_sep (sep : codepoint) (s : pystr) :
  split sep (s ++ [sep]) = split sep s ++ [[]].
Proof.
  induction s as [|c s IH]; simpl.
  - rewrite N.eqb_refl. reflexivity.
  - destruct (c =? sep); [rewrite IH; reflexivity|].
    rewrite IH. pose proof (split_nonempty sep s) as Hne.
    destruct (split sep s); [congruence | reflexivity].
Qed.

Lemma filter_all_dropped (lines : list pystr) :
  Forall (fun line => is_comment_line line = true) lines ->
  List.filter kept lines = [].
Proof.
  induction 1 as [|line rest Hc _ IH]; simpl; [reflexivity|].
  unfold kept at 1. rewrite Hc. exact IH.
Qed.

(** X4: a text made of comment lines only becomes the empty text, and so does
    the same text followed by a final newline: the newline goes with the
    lines. *)
Theorem all_comment_content_emptied (content : pystr) :
  Forall (fun line => is_comment_line line = true) (split NL content) ->
  process_content content = []
  /\ process_content (content ++ [NL]) = [].
Proof.
  intros Hall. rewrite !process_content_filter. split.
  - rewrite (filter_all_dropped _ Hall). reflexivity.
  - rewrite split_snoc_sep, List.filter_app, (filter_all_dropped _ Hall).
    reflexivity.
Qed.

Lemma all_comment_content_emptied_witness :
  Forall (fun line => is_comment_line line = true)
         (split NL (py "// a" ++ [NL] ++ py "   //b"))
  /\ process_content (py "// a" ++ [NL] ++ py "   //b") = []
  /\ process_content ((py "// a" ++ [NL] ++ py "   //b") ++ [NL]) = [].
Proof.
  split; [repeat constructor|].
  apply (all_comment_content_emptied (py "// a" ++ [NL] ++ py "   //b")).
  repeat constructor.
Defined.

Lemma join_snoc_empty (sep : codepoint) (pieces : list pystr) :
  pieces <> [] -> join [sep] (pieces ++ [[]]) = join [sep] pieces ++ [sep].
Proof.
  induction pieces as [|piece rest IH]; intros Hne; [congruence|].
  destruct rest as [|q rest].
  - simpl. reflexivity.
  - change ((piece :: q :: rest) ++ [[]]) with (piece :: ((q :: rest) ++ [[]])).
    rewrite join_cons by (simpl; discriminate).
    rewrite IH by discriminate.
    rewrite (join_cons _ piece (q :: rest)) by discriminate.
    rewrite <- !app_assoc. reflexivity.
Qed.

Lemma filter_kept_nonempty (lines : list pystr) :
  Exists (fun line => is_comment_line line = false) lines ->
  List.filter kept lines <> [].
Proof.
  induction 1 as [line rest Hk | line rest _ IH]; simpl.
  - apply kept_false_iff in Hk. rewrite Hk. discriminate.
  - destruct (kept line); [discriminate | exact IH].
Qed.

(** X5: the final newline of a file survives as long as some line does: when
    at least one line of the text is not a comment line, filtering the text
    with a newline appended gives the filtered text with a newline
    appended. *)
Theorem final_newline_kept (content : pystr) :
  Exists (fun line => is_comment_line line = false) (split NL content) ->
  process_content (content ++ [NL]) = process_content content ++ [NL].
Proof.
  intros Hsome. rewrite !process_content_filter.
  rewrite split_snoc_sep, List.filter_app.
  change (List.filter kept [[]]) with [@nil codepoint].
  apply join_snoc_empty, filter_kept_nonempty, Hsome.
Qed.

Lemma final_newline_kept_witness :
  Exists (fun line => is_comment_line line = false)
         (split NL (py "// a" ++ [NL] ++ py "x"))
  /\ process_content ((py "// a" ++ [NL] ++ py "x") ++ [NL])
     = process_content (py "// a" ++ [NL] ++ py "x") ++ [NL].
Proof.
  split; [right; left; reflexivity|].
  apply (final_newline_kept (py "// a" ++ [NL] ++ py "x")).
  right. left. reflexivity.
Defined.

Lemma length_join_filter (sep : codepoint) (f : pystr -> bool) (pieces : list pystr) :
  (length (join [sep] (List.filter f pieces)) <= length (join [sep] pieces))%nat.
Proof.
  induction pieces as [|piece rest IH]; [simpl; lia|].
  assert (Hrest : (length (join [sep] rest)
                   <= length (join [sep] (piece :: rest)))%nat).
  { destruct rest as [|q rest]; [simpl; lia|].
    rewrite (join_cons _ piece (q :: rest)) by discriminate.
    rewrite !length_app. lia. }
  cbn [List.filter]. destruct (f piece); [|lia].
  destruct rest as [|q rest]; [simpl; lia|].
  rewrite (join_cons _ piece (q :: rest)) by discriminate.
  destruct (List.filter f (q :: rest)) as [|k ks] eqn:Hf.
  - simpl. rewrite length_app. lia.
  - rewrite (join_cons _ piece (k :: ks)) by discriminate.
    rewrite !length_app in *. lia.
Qed.

(** X6: the filter only takes text away: its output is never longer than its
    input. *)
Theorem output_not_longer (content : pystr) :
  (length (process_content content) <= length content)%nat.
Proof.
  rewrite process_content_filter.
  rewrite <- (join_split NL content) at 2.
  apply length_join_filter.
Qed.

(** * Further properties of the driver *)

Section DriverMore.
Context `{Console} `{FileSystem fs}.
Variable scantree : pystr -> option (list entry).

(** X7: when every line the run is to print can be encoded by the console,
    a run with a directory argument prints exactly one line per target, in
    the order of the walk, each either [Processed: <path>] or
    [Error processing <path>: <message>] for that target's path, and exits
    with status 0. *)
Theorem one_line_per_target (prog directory : pystr) (w : world fs) :
  lines_printable (targets scantree directory) w = true ->
  exists lines w',
    main scantree [prog; directory] w = (Exit 0, w')
    /\ stdout w' = stdout w ++ lines
    /\ Forall2 reports (targets scantree directory) lines.
Proof.
  intros Hrun.
  destruct (foldl_report_lines (targets scantree directory) w) as [lines [Hout Hrep]].
  exists lines, (foldl file_report w (targets scantree directory)).
  split; [apply main_reports, Hrun|]. split; assumption.
Qed.

(** X13: a target whose path the console cannot encode ends the run.  The
    targets before it are reported; the file itself is read and, if it can
    be, written; then no line is printed, the targets after it are not
    looked at, and the run ends with an uncaught exception, exit status 1. *)
Theorem unencodable_path_aborts_run (prog directory : pystr)
    (before : list pystr) (file_path : pystr) (after : list pystr) (w : world fs) :
  targets scantree directory = before ++ file_path :: after ->
  lines_printable before w = true ->
  printable file_path = false ->
  exists e,
    main scantree [prog; directory] w
    = (Uncaught e,
       World (files_after file_path (foldl file_report w before))
             (stdout (foldl file_report w before)))
    /\ exit_status (main scantree [prog; directory] w).1 = 1.
Proof.
  intros Htargets Hbefore Hpath.
  destruct (main_aborts scantree prog directory before file_path after w
              Htargets Hbefore Hpath) as [e He].
  exists e. rewrite He. split; reflexivity.
Qed.

(** X8: a directory that cannot be listed is no error: nothing is printed, no
    file is touched, and the exit status is 0. *)
Theorem unlistable_directory_silent (prog directory : pystr) (w : world fs) :
  scantree directory = None ->
  main scantree [prog; directory] w = (Exit 0, w).
Proof.
  intros Hnone. rewrite main_runs_targets. unfold targets, os_walk.
  rewrite Hnone. reflexivity.
Qed.

Lemma guarded_call_frame (q p : pystr) (w : world fs) :
  (forall p text st, p <> q -> fs_read q (fs_write p text st).2 = fs_read q st) ->
  p <> q ->
  fs_read q (files (guarded_call p w).2) = fs_read q (files w).
Proof.
  intros Hlocal Hne. rewrite guarded_call_files. unfold files_after.
  destruct (fs_read p (files w)) as [e|content]; [reflexivity|].
  apply Hlocal, Hne.
Qed.

Lemma guarded_loop_frame (q : pystr) (paths : list pystr) (w : world fs) :
  (forall p text st, p <> q -> fs_read q (fs_write p text st).2 = fs_read q st) ->
  ~ In q paths ->
  fs_read q (files (for_each paths guarded_call w).2) = fs_read q (files w).
Proof.
  intros Hlocal. revert w. induction paths as [|p rest IH]; intros w Hq.
  - reflexivity.
  - assert (Hne : p <> q) by (intros ->; apply Hq; left; reflexivity).
    assert (Hrest : ~ In q rest) by (intros Hin; apply Hq; right; exact Hin).
    pose proof (guarded_call_frame q p w Hlocal Hne) as Hstep.
    cbn [for_each]. unfold bind.
    destruct (guarded_call p w) as [[e|[]] w1]; cbn [snd] in *.
    + exact Hstep.
    + rewrite (IH _ Hrest). exact Hstep.
Qed.

(** X9: files that are not targets are left alone: when writing one path does
    not change what another path reads as, every path outside the targets
    reads after a run as it did before. *)
Theorem other_files_untouched (prog directory q : pystr) (w : world fs) :
  (forall p text st, p <> q -> fs_read q (fs_write p text st).2 = fs_read q st) ->
  ~ In q (targets scantree directory) ->
  fs_read q (files (main scantree [prog; directory] w).2) = fs_read q (files w).
Proof.
  intros Hlocal Hq. rewrite main_runs_targets.
  pose proof (guarded_loop_frame q (targets scantree directory) w Hlocal Hq) as Hloop.
  destruct (for_each (targets scantree directory) guarded_call w) as [[e|[]] w'];
    exact Hloop.
Qed.

End DriverMore.

Lemma one_line_per_target_witness :
  lines_printable (targets sample_tree (py "src")) (World sample_files []) = true
  /\ exists lines w',
       main sample_tree [py "comments.py"; py "src"] (World sample_files [])
       = (Exit 0, w')
       /\ stdout w' = [] ++ lines
       /\ Forall2 reports (targets sample_tree (py "src")) lines.
Proof.
  split; [vm_compute; reflexivity|].
  apply (one_line_per_target sample_tree (py "comments.py") (py "src")
           (World sample_files [])).
  vm_compute. reflexivity.
Defined.

Lemma unencodable_path_aborts_run_witness :
  (targets sample_bad_tree (py "k")
   = [py "k/a.ts"] ++ path_join (py "k") BAD_NAME :: [py "k/b.js"]
   /\ lines_printable [py "k/a.ts"] (World sample_bad_files []) = true
   /\ printable (path_join (py "k") BAD_NAME) = false)
  /\ (stdout (main sample_bad_tree [py "comments.py"; py "k"]
                (World sample_bad_files [])).2
      = [py "Processed: k/a.ts"]
      /\ mem_read (py "k/b.js")
           (files (main sample_bad_tree [py "comments.py"; py "k"]
                     (World sample_bad_files [])).2)
         = inr (py "// d"))
  /\ exists e,
       main sample_bad_tree [py "comments.py"; py "k"] (World sample_bad_files [])
       = (Uncaught e,
          World (files_after (path_join (py "k") BAD_NAME)
                   (foldl file_report (World sample_bad_files []) [py "k/a.ts"]))
                (stdout (foldl file_report (World sample_bad_files []) [py "k/a.ts"])))
       /\ exit_status
            (main sample_bad_tree [py "comments.py"; py "k"]
               (World sample_bad_files [])).1 = 1.
Proof.
  split; [repeat split; vm_compute; reflexivity|].
  split; [split; vm_compute; reflexivity|].
  apply (unencodable_path_aborts_run sample_bad_tree (py "comments.py") (py "k")
           [py "k/a.ts"] (path_join (py "k") BAD_NAME) [py "k/b.js"]
           (World sample_bad_files [])); vm_compute; reflexivity.
Defined.

Lemma unlistable_directory_silent_witness :
  sample_tree (py "nowhere") = None
  /\ main sample_tree [py "comments.py"; py "nowhere"] (World sample_files [])
     = (Exit 0, World sample_files []).
Proof.
  split; [reflexivity|].
  apply (unlistable_directory_silent sample_tree (py "comments.py") (py "nowhere")
           (World sample_files [])).
  reflexivity.
Defined.

Lemma mem_write_local (q p text : pystr) (st : gmap pystr mfile) :
  p <> q -> mem_read q (mem_write p text st).2 = mem_read q st.
Proof.
  intros Hne. unfold mem_write, mem_read.
  destruct (st !! p) as [f|]; [destruct (m_refuse f)|]; cbn [snd];
    rewrite ?lookup_insert_ne by exact Hne; reflexivity.
Qed.

Lemma other_files_untouched_witness :
  ~ In (py "src/README.md") (targets sample_tree (py "src"))
  /\ mem_read (py "src/README.md")
       (files (main sample_tree [py "comments.py"; py "src"] (World sample_files [])).2)
     = inr (py "// text").
Proof.
  assert (Hout : ~ In (py "src/README.md") (targets sample_tree (py "src"))).
  { vm_compute. intros [Heq|[Heq|[]]]; discriminate Heq. }
  split; [exact Hout|].
  pose proof (other_files_untouched sample_tree (py "comments.py") (py "src")
                (py "src/README.md") (World sample_files [])
                (fun p text st => mem_write_local (py "src/README.md") p text st)
                Hout) as Hrun.
  vm_compute in Hrun |- *. exact Hrun.
Defined.

(** ** Which paths are targets *)

Lemma startswith_app_l (a b p : pystr) :
  startswith a p = true -> startswith (a ++ b) p = true.
Proof.
  intros Ha. destruct (startswith_inv _ _ Ha) as [r ->].
  rewrite <- app_assoc. apply startswith_app.
Qed.

Lemma endswith_app (x s suffix : pystr) :
  endswith s suffix = true -> endswith (x ++ s) suffix = true.
Proof.
  unfold endswith. intros Hs. rewrite rev_app_distr.
  apply startswith_app_l. exact Hs.
Qed.

Lemma path_join_suffix (a b : pystr) : exists x, path_join a b = x ++ b.
Proof.
  unfold path_join. destruct (startswith b [SLASH]).
  - exists []. reflexivity.
  - destruct (_ || _).
    + exists a. reflexivity.
    + exists (a ++ [SLASH]). rewrite <- app_assoc. reflexivity.
Qed.

Lemma recognized_path_join (root file : pystr) :
  recognized file = true -> recognized (path_join root file) = true.
Proof.
  unfold recognized. intros Hrec.
  destruct (path_join_suffix root file) as [x ->].
  apply orb_true_iff in Hrec as [Hts|Hjs].
  - rewrite (endswith_app _ _ _ Hts). reflexivity.
  - rewrite (endswith_app _ _ _ Hjs). apply orb_true_r.
Qed.

(** X10: [remove_inline_comments] is only ever called on a path that ends in
    [.ts] or [.js]. *)
Theorem targets_have_recognized_extension
    (scantree : pystr -> option (list entry)) (directory : pystr) :
  Forall (fun file_path =>
            endswith file_path (py ".ts") || endswith file_path (py ".js") = true)
         (targets scantree directory).
Proof.
  apply List.Forall_forall. intros file_path Hin. unfold targets in Hin.
  apply List.in_flat_map in Hin as [[[root dirs] files] [_ Hin]].
  apply List.in_flat_map in Hin as [file [_ Hin]].
  destruct (recognized file) eqn:Hrec; [|destruct Hin].
  destruct Hin as [<-|[]]. apply (recognized_path_join root file Hrec).
Qed.

Lemma file_targets_app (root : pystr) (xs ys : list pystr) :
  file_targets root (xs ++ ys) = file_targets root xs ++ file_targets root ys.
Proof. apply List.flat_map_app. Qed.

Lemma walk_targets_app (xs ys : list (pystr * list pystr * list pystr)) :
  walk_targets (xs ++ ys) = walk_targets xs ++ walk_targets ys.
Proof. apply List.flat_map_app. Qed.

Lemma walk_targets_cons (root : pystr) (dirs files : list pystr)
    (rest : list (pystr * list pystr * list pystr)) :
  walk_targets ((root, dirs, files) :: rest)
  = file_targets root files ++ walk_targets rest.
Proof. reflexivity. Qed.

Lemma Permutation_interleave {A} (a b c d : list A) :
  Permutation ((a ++ b) ++ (c ++ d)) ((a ++ c) ++ (b ++ d)).
Proof.
  rewrite <- !app_assoc. apply Permutation_app_head.
  rewrite !app_assoc. apply Permutation_app_tail, Permutation_app_comm.
Qed.

(** Over the children of one directory: the targets among the files listed
    there, with the targets found in the walks below, are the recognized
    files of the subtrees at their paths. *)
Lemma children_target_paths (top : pystr) (children : list entry) :
  Forall (fun e => forall top',
            Permutation
              (file_targets top' (match e with File n => [n] | Dir _ _ => [] end)
               ++ walk_targets (walk_entry top' e))
              (entry_target_paths top' e)) children ->
  Permutation
    (file_targets top (filenames children)
     ++ walk_targets (flat_map (walk_entry top) children))
    (tree_target_paths top children).
Proof.
  unfold tree_target_paths, filenames.
  induction 1 as [|e rest He _ IH]; [reflexivity|].
  cbn [flat_map]. rewrite file_targets_app, walk_targets_app.
  etransitivity; [apply Permutation_interleave|].
  apply Permutation_app; [apply He | exact IH].
Qed.

Lemma walk_entry_target_paths (e : entry) :
  forall top,
    Permutation
      (file_targets top (match e with File n => [n] | Dir _ _ => [] end)
       ++ walk_targets (walk_entry top e))
      (entry_target_paths top e).
Proof.
  induction e as [name|name children IH] using entry_nested_ind; intros top.
  - cbn [walk_entry walk_targets flat_map entry_target_paths file_targets].
    rewrite !app_nil_r. reflexivity.
  - cbn [walk_entry entry_target_paths file_targets flat_map app].
    rewrite walk_targets_cons.
    apply (children_target_paths (path_join top name) children IH).
Qed.

(** X11: the targets are the files of the tree whose name ends in [.ts] or
    [.js], at any depth, each once and at its own path (the directory
    names from the argument down to the file, then the file name), up to
    the order of the walk.  Directories are never targets, whatever their
    names. *)
Theorem every_recognized_file_is_a_target
    (scantree : pystr -> option (list entry)) (directory : pystr)
    (entries : list entry) :
  scantree directory = Some entries ->
  Permutation (targets scantree directory) (tree_target_paths directory entries).
Proof.
  intros Hscan.
  change (targets scantree directory)
    with (walk_targets (os_walk scantree directory)).
  unfold os_walk, walk. rewrite Hscan, walk_targets_cons.
  apply (children_target_paths directory entries).
  apply List.Forall_forall. intros e _. apply walk_entry_target_paths.
Qed.

Lemma every_recognized_file_is_a_target_witness :
  sample_deep_tree (py "app")
  = Some [Dir (py "x.js") [File (py "b.js"); File (py "c.md")];
          File (py "a.ts");
          Dir (py "lib") [Dir (py "util") [File (py "d.ts")]]]
  /\ targets sample_deep_tree (py "app")
     = [py "app/a.ts"; py "app/x.js/b.js"; py "app/lib/util/d.ts"]
  /\ Permutation (targets sample_deep_tree (py "app"))
       [py "app/x.js/b.js"; py "app/a.ts"; py "app/lib/util/d.ts"].
Proof.
  split; [reflexivity|]. split; [reflexivity|].
  apply (every_recognized_file_is_a_target sample_deep_tree (py "app")
           [Dir (py "x.js") [File (py "b.js"); File (py "c.md")];
            File (py "a.ts");
            Dir (py "lib") [Dir (py "util") [File (py "d.ts")]]]).
  reflexivity.
Defined.

(** ** A file that is already filtered *)

Lemma process_content_fixed (content : pystr) :
  process_content (process_content content) = process_content content.
Proof.
  rewrite (process_content_filter content).
  pose proof (process_lines_sep_free content) as Hfree.
  pose proof (process_lines_kept (split NL content)) as Hkept.
  rewrite process_lines_filter in Hfree, Hkept. simpl in Hfree, Hkept.
  destruct (List.filter kept (split NL content)) as [|line rest] eqn:Hk.
  - reflexivity.
  - rewrite process_content_filter.
    rewrite split_join by (discriminate || exact Hfree).
    rewrite (filter_kept_id _ Hkept). reflexivity.
Qed.

(** X12: the script does not look whether anything changed: a readable file
    that is already filtered is written again, with exactly the text that
    was read. *)
Theorem filtered_file_rewritten_as_is `{Console} `{FileSystem fs}
    (file_path content : pystr) (w : world fs) :
  fs_read file_path (files w) = inr (process_content content) ->
  remove_inline_comments file_path w
  = (write_text file_path (process_content content) ;;;
     print (py "Processed: " ++ file_path)) w.
Proof.
  intros Hread. unfold remove_inline_comments, bind at 1, read_text.
  rewrite Hread, process_content_fixed. reflexivity.
Qed.

Lemma filtered_file_rewritten_as_is_witness :
  mem_read (py "lib/m.ts") sample_filtered
  = inr (process_content (py "// note" ++ [NL] ++ py "x"))
  /\ remove_inline_comments (py "lib/m.ts") (World sample_filtered [])
     = (inr tt, World sample_filtered [py "Processed: lib/m.ts"]).
Proof.
  split; [reflexivity|].
  pose proof (filtered_file_rewritten_as_is (py "lib/m.ts")
                (py "// note" ++ [NL] ++ py "x") (World sample_filtered [])
                eq_refl) as Hrun.
  vm_compute in Hrun |- *. exact Hrun.
Defined.
